(** * Explorer mixnode grid rows

    A shallow embedding of [explorer/src/components/MixNodes/index.ts]:
    [mixnodeToGridRow] and [mixNodeResponseItemToMixnodeRowType], together
    with the ECMAScript operations these two functions call
    ([Number], [||], [toFixed], template literals, [typeof], optional
    chaining), and the properties the specification states about them. *)

From Stdlib Require Import ZArith QArith Qround Qabs List Bool Ascii String Lia.
From Stdlib Require Import Floats.SpecFloat Numbers.DecimalString.
Import ListNotations.

Open Scope string_scope.

(** ** Numbers

    An ECMAScript Number is an IEEE 754 binary64 value.  The Standard
    Library's [spec_float] gives these values and their correctly rounded
    operations (round to nearest, ties to even); it has one NaN, as
    ECMAScript observes only one. *)

Module JsNumber.

Definition number := spec_float.

Definition prec : Z := 53.
Definition emax : Z := 1024.

Definition add : number -> number -> number := SFadd prec emax.
Definition mul : number -> number -> number := SFmul prec emax.
Definition div : number -> number -> number := SFdiv prec emax.

Definition NaN : number := S754_nan.
Definition Infinity : number := S754_infinity false.
Definition zero : number := S754_zero false.

(** The Number value of a non-negative integer. *)
Definition of_N (n : N) : number :=
  binary_normalize prec emax (Z.of_N n) 0 false.

Definition isNaN (x : number) : bool :=
  match x with S754_nan => true | _ => false end.

Definition isFinite (x : number) : bool :=
  match x with S754_zero _ | S754_finite _ _ _ => true | _ => false end.

(** [x === y] on Numbers: NaN differs from everything, the zeros agree. *)
Definition strict_eq : number -> number -> bool := SFeqb.

(** The Number value for the mathematical value [m * 10 ^ e10] carrying
    the sign [neg]: the nearest binary64, ties to even, the infinities
    past the largest finite value. *)
Definition of_decimal (neg : bool) (m : N) (e10 : Z) : number :=
  match m with
  | N0 => S754_zero neg
  | Npos p =>
      match e10 with
      | Zneg q =>
          let '(mz, ez, lz) :=
            SFdiv_core_binary prec emax (Zpos p) 0 (Z.pow_pos 10 q) 0 in
          binary_round_aux prec emax neg mz ez lz
      | _ => binary_normalize prec emax
               (cond_Zopp neg (Zpos p * 10 ^ e10)) 0 neg
      end
  end.

(** The mathematical value of a finite Number (0 for the others, which
    every caller has excluded). *)
Definition to_Q (x : number) : Q :=
  match x with
  | S754_finite s m e =>
      let v := match e with
               | Zneg k => Zpos m # Pos.shiftl 1 (Npos k)
               | _ => inject_Z (Zpos m * 2 ^ e)
               end in
      if s then Qopp v else v
  | _ => 0%Q
  end.

End JsNumber.

Import JsNumber.

(** ** Strings

    An ECMAScript string is modelled by a [string] holding its UTF-8 bytes.
    The program concatenates strings, tests them for emptiness and hands
    them to [Number]; only the last looks inside, for white space and
    ASCII digits. *)

Module JsString.

Definition code (c : ascii) : N := N_of_ascii c.

Definition is_empty (s : string) : bool :=
  match s with EmptyString => true | String _ _ => false end.

Fixpoint zeros (n : nat) : string :=
  match n with O => "" | S n' => String "0" (zeros n') end.

(** The decimal digits of a non-negative integer, ["0"] for zero. *)
Definition digits_of (n : N) : string :=
  NilZero.string_of_uint (N.to_uint n).

(** *** StrWhiteSpaceChar

    TAB, LF, VT, FF, CR and SP in one byte; U+00A0 in two; U+1680,
    U+2000 to U+200A, U+2028, U+2029, U+202F, U+205F, U+3000 and U+FEFF
    in three. *)
Definition ws1 (a : N) : bool :=
  ((9 <=? a) && (a <=? 13) || (a =? 32))%N.

Definition ws2 (a b : N) : bool := ((a =? 194) && (b =? 160))%N.

Definition ws3 (a b c : N) : bool :=
  ((a =? 225) && (b =? 154) && (c =? 128)
   || (a =? 226) && (b =? 128)
      && ((128 <=? c) && (c <=? 138) || (c =? 168) || (c =? 169) || (c =? 175))
   || (a =? 226) && (b =? 129) && (c =? 159)
   || (a =? 227) && (b =? 128) && (c =? 128)
   || (a =? 239) && (b =? 187) && (c =? 191))%N.

(** Drops the white space a string starts with. *)
Fixpoint skip_ws (s : string) : string :=
  match s with
  | String c1 r1 =>
      if ws1 (code c1) then skip_ws r1 else
      match r1 with
      | String c2 r2 =>
          if ws2 (code c1) (code c2) then skip_ws r2 else
          match r2 with
          | String c3 r3 =>
              if ws3 (code c1) (code c2) (code c3) then skip_ws r3 else s
          | EmptyString => s
          end
      | EmptyString => s
      end
  | EmptyString => s
  end.

(** *** Digits *)
Definition dec_digit (c : ascii) : option N :=
  let a := code c in
  if ((48 <=? a) && (a <=? 57))%N then Some (a - 48)%N else None.

Definition hex_digit (c : ascii) : option N :=
  let a := code c in
  if ((48 <=? a) && (a <=? 57))%N then Some (a - 48)%N
  else if ((97 <=? a) && (a <=? 102))%N then Some (a - 87)%N
  else if ((65 <=? a) && (a <=? 70))%N then Some (a - 55)%N
  else None.

Definition oct_digit (c : ascii) : option N :=
  let a := code c in
  if ((48 <=? a) && (a <=? 55))%N then Some (a - 48)%N else None.

Definition bin_digit (c : ascii) : option N :=
  let a := code c in
  if ((48 <=? a) && (a <=? 49))%N then Some (a - 48)%N else None.

(** Reads the longest run of digits [s] starts with, in base [base],
    continuing the value [acc]: the value, the number of digits read and
    the rest of the string. *)
Fixpoint span_digits (digit : ascii -> option N) (base : N)
         (s : string) (acc : N) (count : nat) : N * nat * string :=
  match s with
  | String c r =>
      match digit c with
      | Some d => span_digits digit base r (acc * base + d)%N (S count)
      | None => (acc, count, s)
      end
  | EmptyString => (acc, count, s)
  end.

(** An optional sign: whether it is a minus, and the rest. *)
Definition read_sign (s : string) : bool * string :=
  match s with
  | String "+" r => (false, r)
  | String "-" r => (true, r)
  | _ => (false, s)
  end.

(** ExponentPart, when [s] starts with a complete one: its value and the
    rest; 0 and [s] itself otherwise. *)
Definition read_exponent (s : string) : Z * string :=
  match s with
  | String c r =>
      if ((code c =? 101) || (code c =? 69))%N then
        let '(neg, r1) := read_sign r in
        let '(v, n, r2) := span_digits dec_digit 10 r1 0%N O in
        match n with
        | O => (0%Z, s)
        | S _ => (cond_Zopp neg (Z.of_N v), r2)
        end
      else (0%Z, s)
  | EmptyString => (0%Z, s)
  end.

(** StrUnsignedDecimalLiteral other than Infinity: mantissa, decimal
    exponent and the rest. *)
Definition read_unsigned_decimal (s : string) : option (N * Z * string) :=
  let '(vi, ni, r1) := span_digits dec_digit 10 s 0%N O in
  let '(m, nf, r2) :=
    match r1 with
    | String "." r => span_digits dec_digit 10 r vi O
    | _ => (vi, O, r1)
    end in
  match (ni + nf)%nat with
  | O => None
  | S _ =>
      let '(e, r3) := read_exponent r2 in
      Some (m, (e - Z.of_nat nf)%Z, r3)
  end.

(** Whether [s] starts with [p], and what follows it. *)
Fixpoint strip_prefix (p s : string) : option string :=
  match p, s with
  | EmptyString, _ => Some s
  | String a p', String b s' =>
      if Ascii.eqb a b then strip_prefix p' s' else None
  | String _ _, EmptyString => None
  end.

(** NonDecimalIntegerLiteral: [0x], [0o] and [0b] in either case. *)
Definition read_non_decimal (s : string) : option (N * string) :=
  match s with
  | String "0" (String c r) =>
      let a := code c in
      let go digit base :=
        let '(v, n, r') := span_digits digit base r 0%N O in
        match n with O => None | S _ => Some (v, r') end in
      if ((a =? 120) || (a =? 88))%N then go hex_digit 16%N
      else if ((a =? 111) || (a =? 79))%N then go oct_digit 8%N
      else if ((a =? 98) || (a =? 66))%N then go bin_digit 2%N
      else None
  | _ => None
  end.

(** StrNumericLiteral: the Number it denotes, and the rest. *)
Definition read_numeric (s : string) : option (number * string) :=
  match read_non_decimal s with
  | Some (v, r) => Some (of_decimal false v 0, r)
  | None =>
      let '(neg, r) := read_sign s in
      match strip_prefix "Infinity" r with
      | Some r' => Some (S754_infinity neg, r')
      | None =>
          match read_unsigned_decimal r with
          | Some (m, e10, r') => Some (of_decimal neg m e10, r')
          | None => None
          end
      end
  end.

(** StringToNumber: white space around a StrNumericLiteral, or white
    space alone, which is [+0]; anything else is [NaN]. *)
Definition StringToNumber (s : string) : number :=
  let t := skip_ws s in
  if is_empty t then zero
  else match read_numeric t with
       | Some (v, r) => if is_empty (skip_ws r) then v else NaN
       | None => NaN
       end.

End JsString.

Import JsString.

(** ** Number to string *)

Module JsFormat.

Local Open Scope Q_scope.

Definition pow10 (n : Z) : Q := inject_Z 10 ^ n.

(** Equality of representations; on valid binary64 values it is equality
    of the values, the two zeros apart. *)
Definition same_value (x y : number) : bool :=
  match x, y with
  | S754_zero a, S754_zero b => Bool.eqb a b
  | S754_infinity a, S754_infinity b => Bool.eqb a b
  | S754_nan, S754_nan => true
  | S754_finite a m e, S754_finite b m' e' =>
      Bool.eqb a b && Pos.eqb m m' && Z.eqb e e'
  | _, _ => false
  end.

(** The [n] with [10 ^ (n - 1) <= v < 10 ^ n], searched downwards from
    [n]; a finite binary64 is below [10 ^ 309] and its least positive
    value is above [10 ^ (-324)]. *)
Fixpoint magnitude (fuel : nat) (n : Z) (v : Q) : Z :=
  match fuel with
  | O => n
  | S fuel' =>
      if Qle_bool (pow10 (n - 1)) v then n
      else magnitude fuel' (n - 1)%Z v
  end.

(** Number::toString, step 5: the fewest digits [s], with their decimal
    exponent [q], for which [s * 10 ^ q] converts back to [x]; of two
    candidates the one closer to [x], the even one when they are as
    close.  [k] counts the digits tried, from 1; 17 digits identify any
    binary64. *)
Fixpoint shortest (fuel : nat) (k : Z) (n0 : Z) (x : number) (v : Q)
  : N * Z :=
  let q := (n0 - k)%Z in
  let lo := Z.to_N (Qfloor (v / pow10 q)) in
  let hi := (lo + 1)%N in
  match fuel with
  | O => (lo, q)
  | S fuel' =>
      let ok_lo := same_value (of_decimal false lo q) x in
      let ok_hi := same_value (of_decimal false hi q) x in
      let below := v - inject_Z (Z.of_N lo) * pow10 q in
      let above := inject_Z (Z.of_N hi) * pow10 q - v in
      let pick_lo :=
        match below ?= above with
        | Lt => true
        | Eq => N.even lo
        | Gt => false
        end in
      if ok_lo && (negb ok_hi || pick_lo) then (lo, q)
      else if ok_hi then
        if (hi =? 10 ^ Z.to_N k)%N then (1%N, n0) else (hi, q)
      else shortest fuel' (k + 1)%Z n0 x v
  end.

(** Number::toString of a positive finite Number, steps 5 to 12. *)
Definition positive_to_string (x : number) : string :=
  let v := to_Q x in
  let n0 := magnitude 640 309 v in
  let '(s, q) := shortest 17 1 n0 x v in
  let ds := digits_of s in
  let k := String.length ds in
  let n := (q + Z.of_nat k)%Z in
  if ((Z.of_nat k <=? n) && (n <=? 21))%Z then
    (ds ++ zeros (Z.to_nat n - k))%string
  else if ((0 <? n) && (n <=? 21))%Z then
    (substring 0 (Z.to_nat n) ds ++ "."
       ++ substring (Z.to_nat n) (k - Z.to_nat n) ds)%string
  else if ((-6 <? n) && (n <=? 0))%Z then
    ("0." ++ zeros (Z.to_nat (- n)) ++ ds)%string
  else
    let e := (n - 1)%Z in
    let sign := if (e <? 0)%Z then "-" else "+" in
    let ex := digits_of (Z.abs_N e) in
    match k with
    | 1%nat => (ds ++ "e" ++ sign ++ ex)%string
    | _ => (substring 0 1 ds ++ "." ++ substring 1 (k - 1) ds
              ++ "e" ++ sign ++ ex)%string
    end.

(** Number::toString(x, 10). *)
Definition NumberToString (x : number) : string :=
  match x with
  | S754_nan => "NaN"
  | S754_zero _ => "0"
  | S754_infinity s => if s then "-Infinity" else "Infinity"
  | S754_finite s m e =>
      let t := positive_to_string (S754_finite false m e) in
      if s then ("-" ++ t)%string else t
  end.

(** The errors the modelled operations can raise. *)
Inductive JsError := TypeError | RangeError.

(** Number.prototype.toFixed(fractionDigits) on a Number [x]. *)
Definition toFixed (x : number) (f : nat) : JsError + string :=
  if (100 <? f)%nat then inl RangeError
  else if negb (isFinite x) then inr (NumberToString x)
  else
    let v := to_Q x in
    let neg := match v ?= 0 with Lt => true | _ => false end in
    let a := Qabs v in
    let m :=
      if Qle_bool (pow10 21) a then NumberToString (SFabs x)
      else
        let n := Z.to_N (Qfloor (a * pow10 (Z.of_nat f) + (1 # 2))) in
        let d := digits_of n in
        match f with
        | O => d
        | S _ =>
            let d' := (zeros (S f - String.length d) ++ d)%string in
            let k := String.length d' in
            (substring 0 (k - f) d' ++ "." ++ substring (k - f) f d')%string
        end in
    inr (if neg then ("-" ++ m)%string else m).

End JsFormat.

Import JsFormat.

(** ** Values and the operators of the program *)

Module Js.

(** The primitive values a field of a decoded response can hold. *)
Inductive JsValue :=
| JsUndefined
| JsNull
| JsBoolean (b : bool)
| JsNum (x : number)
| JsStr (s : string).

(** [typeof v]. *)
Definition typeof (v : JsValue) : string :=
  match v with
  | JsUndefined => "undefined"
  | JsNull => "object"
  | JsBoolean _ => "boolean"
  | JsNum _ => "number"
  | JsStr _ => "string"
  end.

(** [Number(v)]: ToNumber on a primitive. *)
Definition Number (v : JsValue) : number :=
  match v with
  | JsUndefined => NaN
  | JsNull => zero
  | JsBoolean b => if b then of_N 1 else zero
  | JsNum x => x
  | JsStr s => StringToNumber s
  end.

(** ToString on a primitive, as a template literal applies it. *)
Definition ToString (v : JsValue) : string :=
  match v with
  | JsUndefined => "undefined"
  | JsNull => "null"
  | JsBoolean b => if b then "true" else "false"
  | JsNum x => NumberToString x
  | JsStr s => s
  end.

(** ToBoolean, per type of operand. *)
Class Truthy (A : Type) := truthy : A -> bool.

#[export] Instance number_truthy : Truthy number :=
  fun x =>
    match x with
    | S754_zero _ | S754_nan => false
    | _ => true
    end.

#[export] Instance string_truthy : Truthy string :=
  fun s => negb (is_empty s).

#[export] Instance value_truthy : Truthy JsValue :=
  fun v =>
    match v with
    | JsUndefined | JsNull => false
    | JsBoolean b => b
    | JsNum x => truthy x
    | JsStr s => truthy s
    end.

(** An array is an object, truthy also when empty. *)
#[export] Instance array_truthy {A : Type} : Truthy (list A) :=
  fun _ => true.

(** [a || d]. *)
Definition or_else {A : Type} `{Truthy A} (a d : A) : A :=
  if truthy a then a else d.

(** [a || d] for an operand that may be [undefined]. *)
Definition or_default {A : Type} `{Truthy A} (a : option A) (d : A) : A :=
  match a with
  | Some x => or_else x d
  | None => d
  end.

(** Computations that return or throw. *)
Definition Js (A : Type) : Type := (JsError + A)%type.

Definition ret {A : Type} (a : A) : Js A := inr a.

Definition bind {A B : Type} (c : Js A) (k : A -> Js B) : Js B :=
  match c with
  | inl e => inl e
  | inr a => k a
  end.

(** [o.p] for an [o] that may be [undefined]: reading a property of
    [undefined] throws a TypeError. *)
Definition get {A : Type} (o : option A) : Js A :=
  match o with
  | Some a => ret a
  | None => inl TypeError
  end.

(** [o?.p]. *)
Definition chain {A B : Type} (o : option A) (p : A -> option B)
  : option B :=
  match o with
  | Some a => p a
  | None => None
  end.

(** [Array.prototype.map] with a callback that may throw: the elements
    in order, the first exception ending the call. *)
Fixpoint Array_map {A B : Type} (f : A -> Js B) (l : list A)
  : Js (list B) :=
  match l with
  | [] => ret []
  | a :: l' =>
      bind (f a) (fun b =>
      bind (Array_map f l') (fun bs => ret (b :: bs)))
  end.

End Js.

Import Js.

Notation "x <- c ;; k" := (bind c (fun x => k))
  (at level 61, c at next level, right associativity).

(** ** The types of [typeDefs/explorer-api] *)

Module ExplorerApi.

(** Modelled from the spec: the declaration of [MixnodeStatus] is in
    [typeDefs/explorer-api]; the program passes the value through. *)
Definition MixnodeStatus : Type := string.

(** Modelled from the spec: the declarations of the response item and of
    the objects nested in it are in [typeDefs/explorer-api].  A field the
    program converts or tests at run time ([Number], [typeof], a template
    literal, [|| 0]) holds any primitive; a field it reads as a string
    holds a string or is missing; a nested object is present or missing.

    Modelled from the spec: an amount, its [amount] a numeric string. *)
Record Amount := { amount : JsValue }.

(** Modelled from the spec: the node-info object. *)
Record MixNode := {
  identity_key : option string;
  host : option string;
  profit_margin_percent : JsValue
}.

(** Modelled from the spec: the optional location object. *)
Record Location := { country_name : option string }.

(** Modelled from the spec: one record of the response.  The response
    type requires [mix_node], [pledge_amount] and [total_delegation]; the
    program nevertheless reads [item?.mix_node?.host], so their absence is
    representable here, and [has_required_objects] below says when they
    are there. *)
Record MixNodeResponseItem := {
  owner : string;
  status : MixnodeStatus;
  mix_node : option MixNode;
  pledge_amount : option Amount;
  total_delegation : option Amount;
  location : option Location;
  layer : option string;
  avg_uptime : JsValue;
  stake_saturation : JsValue
}.

(** Modelled from the spec: the response, an ordered sequence of records. *)
Definition MixNodeResponse : Type := list MixNodeResponseItem.

End ExplorerApi.

(** ** [components/MixNodes/index.ts] *)

Record MixnodeRowType := {
  id : string;
  status : ExplorerApi.MixnodeStatus;
  owner : string;
  location : string;
  identity_key : string;
  bond : number;
  self_percentage : string;
  host : string;
  layer : string;
  profit_percentage : string;
  avg_uptime : string;
  stake_saturation : string
}.

Definition mixNodeResponseItemToMixnodeRowType
  (item : ExplorerApi.MixNodeResponseItem) : Js MixnodeRowType :=
  pledge_amount <- get (ExplorerApi.pledge_amount item) ;;
  let pledge := or_else (Number (ExplorerApi.amount pledge_amount)) zero in
  total_delegation <- get (ExplorerApi.total_delegation item) ;;
  let delegations :=
    or_else (Number (ExplorerApi.amount total_delegation)) zero in
  let totalBond := add pledge delegations in
  selfPercentage <- toFixed (div (mul pledge (of_N 100)) totalBond) 2 ;;
  mix_node <- get (ExplorerApi.mix_node item) ;;
  let profitPercentage :=
    or_else (ExplorerApi.profit_margin_percent mix_node) (JsNum zero) in
  let stakeSaturation :=
    or_else (ExplorerApi.stake_saturation item) (JsStr "") in
  stake <-
    (if String.eqb (typeof stakeSaturation) "number" then
       fixed <- toFixed (mul (Number stakeSaturation) (of_N 100)) 2 ;;
       ret (fixed ++ " %")
     else ret "-") ;;
  ret {|
    id := ExplorerApi.owner item;
    status := ExplorerApi.status item;
    owner := ExplorerApi.owner item;
    identity_key := or_default (ExplorerApi.identity_key mix_node) "";
    bond := or_else totalBond zero;
    location :=
      or_default
        (chain (ExplorerApi.location item) ExplorerApi.country_name) "";
    self_percentage := selfPercentage;
    host :=
      or_default (chain (ExplorerApi.mix_node item) ExplorerApi.host) "";
    layer := or_default (ExplorerApi.layer item) "";
    profit_percentage := ToString profitPercentage ++ "%";
    avg_uptime :=
      or_else (ToString (ExplorerApi.avg_uptime item) ++ "%") "-";
    stake_saturation := stake
  |}.

Definition mixnodeToGridRow
  (arrayOfMixnodes : option ExplorerApi.MixNodeResponse)
  : Js (list MixnodeRowType) :=
  Array_map mixNodeResponseItemToMixnodeRowType
            (or_default arrayOfMixnodes []).

(** The nested objects the program reads without optional chaining
    ([item.pledge_amount.amount], [item.total_delegation.amount],
    [item.mix_node.profit_margin_percent]) are present. *)
Definition has_required_objects (item : ExplorerApi.MixNodeResponseItem)
  : bool :=
  match ExplorerApi.mix_node item, ExplorerApi.pledge_amount item,
        ExplorerApi.total_delegation item with
  | Some _, Some _, Some _ => true
  | _, _, _ => false
  end.

(** The string [x.toFixed(2)] returns. *)
Definition fixed2 (x : number) : string :=
  match toFixed x 2 with
  | inr s => s
  | inl _ => ""
  end.

(** ** Example records *)

Definition node (profit : JsValue) : ExplorerApi.MixNode :=
  {| ExplorerApi.identity_key := Some "B9QkJvXx";
     ExplorerApi.host := Some "198.51.100.7";
     ExplorerApi.profit_margin_percent := profit |}.

Definition record (pledge delegation : string) (saturation : JsValue)
  : ExplorerApi.MixNodeResponseItem :=
  {| ExplorerApi.owner := "n1q8w7e6";
     ExplorerApi.status := "active";
     ExplorerApi.mix_node := Some (node (JsNum (of_N 10)));
     ExplorerApi.pledge_amount := Some {| ExplorerApi.amount := JsStr pledge |};
     ExplorerApi.total_delegation :=
       Some {| ExplorerApi.amount := JsStr delegation |};
     ExplorerApi.location :=
       Some {| ExplorerApi.country_name := Some "Iceland" |};
     ExplorerApi.layer := Some "2";
     ExplorerApi.avg_uptime := JsNum (of_N 97);
     ExplorerApi.stake_saturation := saturation |}.

(** A record with nothing but the required objects. *)
Definition bare_record : ExplorerApi.MixNodeResponseItem :=
  {| ExplorerApi.owner := "n1q8w7e6";
     ExplorerApi.status := "inactive";
     ExplorerApi.mix_node :=
       Some {| ExplorerApi.identity_key := None;
               ExplorerApi.host := None;
               ExplorerApi.profit_margin_percent := JsUndefined |};
     ExplorerApi.pledge_amount :=
       Some {| ExplorerApi.amount := JsStr "12 nym" |};
     ExplorerApi.total_delegation :=
       Some {| ExplorerApi.amount := JsUndefined |};
     ExplorerApi.location := None;
     ExplorerApi.layer := None;
     ExplorerApi.avg_uptime := JsUndefined;
     ExplorerApi.stake_saturation := JsUndefined |}.

(** The Number 0.8552. *)
Definition n_0_8552 : number := of_decimal false 8552 (-4).

(** A record like [record] that lacks its [mix_node]. *)
Definition record_without_node : ExplorerApi.MixNodeResponseItem :=
  {| ExplorerApi.owner := "n1z5x4c3";
     ExplorerApi.status := "standby";
     ExplorerApi.mix_node := None;
     ExplorerApi.pledge_amount := Some {| ExplorerApi.amount := JsStr "600" |};
     ExplorerApi.total_delegation :=
       Some {| ExplorerApi.amount := JsStr "400" |};
     ExplorerApi.location := None;
     ExplorerApi.layer := Some "3";
     ExplorerApi.avg_uptime := JsNum (of_N 80);
     ExplorerApi.stake_saturation := JsUndefined |}.

(** [{ ...item, pledge_amount: { amount: p }, total_delegation: { amount: d } }]:
    the record [item] with other amounts. *)
Definition with_amounts (p d : JsValue)
  (item : ExplorerApi.MixNodeResponseItem) : ExplorerApi.MixNodeResponseItem :=
  {| ExplorerApi.owner := ExplorerApi.owner item;
     ExplorerApi.status := ExplorerApi.status item;
     ExplorerApi.mix_node := ExplorerApi.mix_node item;
     ExplorerApi.pledge_amount := Some {| ExplorerApi.amount := p |};
     ExplorerApi.total_delegation := Some {| ExplorerApi.amount := d |};
     ExplorerApi.location := ExplorerApi.location item;
     ExplorerApi.layer := ExplorerApi.layer item;
     ExplorerApi.avg_uptime := ExplorerApi.avg_uptime item;
     ExplorerApi.stake_saturation := ExplorerApi.stake_saturation item |}.

(** * Properties *)

Arguments toFixed : simpl never.
Arguments NumberToString : simpl never.
Arguments StringToNumber : simpl never.
Arguments add : simpl never.
Arguments mul : simpl never.
Arguments div : simpl never.
Arguments of_N : simpl never.

(** ** The conversions on known values *)

Example Number_of_tenth :
  StringToNumber "0.1" = S754_finite false 7205759403792794 (-56).
Proof. vm_compute. reflexivity. Qed.

Example Number_of_strings :
  map StringToNumber ["600"; " 0x1F "; ""; "-0"; "1e"; "12 nym"; "1e400"]
  = [of_N 600; of_N 31; zero; S754_zero true; NaN; NaN; Infinity].
Proof. vm_compute. reflexivity. Qed.

Example NumberToString_values :
  map (fun s => NumberToString (StringToNumber s))
      ["0.1"; "1e21"; "123.456"; "0.000001"; "1e-7"; "-1.5"; "100"]
  = ["0.1"; "1e+21"; "123.456"; "0.000001"; "1e-7"; "-1.5"; "100"].
Proof. vm_compute. reflexivity. Qed.

Example toFixed_values :
  map (fun s => toFixed (StringToNumber s) 2)
      ["60"; "1.005"; "10.235"; "-0.001"; "1e21"; "-0"; "abc"]
  = map inr ["60.00"; "1.00"; "10.23"; "-0.00"; "1e+21"; "0.00"; "NaN"].
Proof. vm_compute. reflexivity. Qed.

Example toFixed_digits_out_of_range : toFixed (of_N 1) 101 = inl RangeError.
Proof. reflexivity. Qed.

Example row_of_full_record :
  mixNodeResponseItemToMixnodeRowType (record "600" "400" (JsNum n_0_8552))
  = inr {| id := "n1q8w7e6"; status := "active"; owner := "n1q8w7e6";
           location := "Iceland"; identity_key := "B9QkJvXx";
           bond := of_N 1000; self_percentage := "60.00";
           host := "198.51.100.7"; layer := "2";
           profit_percentage := "10%"; avg_uptime := "97%";
           stake_saturation := "85.52 %" |}.
Proof. vm_compute. reflexivity. Qed.

Example row_without_mix_node :
  mixNodeResponseItemToMixnodeRowType
    {| ExplorerApi.owner := "n1q8w7e6";
       ExplorerApi.status := "active";
       ExplorerApi.mix_node := None;
       ExplorerApi.pledge_amount :=
         Some {| ExplorerApi.amount := JsStr "600" |};
       ExplorerApi.total_delegation :=
         Some {| ExplorerApi.amount := JsStr "400" |};
       ExplorerApi.location := None;
       ExplorerApi.layer := Some "2";
       ExplorerApi.avg_uptime := JsNum (of_N 97);
       ExplorerApi.stake_saturation := JsUndefined |}
  = inl TypeError.
Proof. reflexivity. Qed.

Example row_of_bare_record :
  mixNodeResponseItemToMixnodeRowType bare_record
  = inr {| id := "n1q8w7e6"; status := "inactive"; owner := "n1q8w7e6";
           location := ""; identity_key := "";
           bond := zero; self_percentage := "NaN";
           host := ""; layer := "";
           profit_percentage := "0%"; avg_uptime := "undefined%";
           stake_saturation := "-" |}.
Proof. vm_compute. reflexivity. Qed.

(** ** The operators *)

Section Operators.

Lemma toFixed_2 (x : number) : toFixed x 2 = inr (fixed2 x).
Proof.
  unfold fixed2, toFixed.
  change (100 <? 2)%nat with false; cbv iota.
  destruct (negb (isFinite x)); reflexivity.
Qed.

Lemma append_nonempty (s t : string) :
  is_empty t = false -> is_empty (s ++ t) = false.
Proof. destruct s; simpl; auto. Qed.

(** A string that ends in a percent sign is not the dash. *)
Lemma percent_is_not_dash (s : string) : s ++ "%" <> "-".
Proof.
  destruct s as [|c [|c' s']]; simpl; try discriminate.
Qed.

(** [`${v}%` || '-']: the left operand is never empty. *)
Lemma percent_or_dash (s : string) : or_else (s ++ "%") "-" = s ++ "%".
Proof.
  unfold or_else, truthy, string_truthy.
  now rewrite append_nonempty.
Qed.

(** [s || ''] is [s] for every string. *)
Lemma or_else_empty (s : string) : or_else s "" = s.
Proof. destruct s; reflexivity. Qed.

Lemma or_default_empty (o : option string) :
  or_default o "" = match o with Some s => s | None => "" end.
Proof. destruct o; simpl; auto using or_else_empty. Qed.

(** [x || 0] on Numbers. *)
Lemma or_zero_cases (x : number) :
  (truthy x = true /\ or_else x zero = x)
  \/ (truthy x = false /\ or_else x zero = zero).
Proof. unfold or_else; destruct (truthy x); auto. Qed.

Lemma or_zero_nan (x : number) : isNaN x = true -> or_else x zero = zero.
Proof. destruct x; simpl; try discriminate; reflexivity. Qed.

Lemma strict_eq_refl (x : number) : isNaN x = false -> strict_eq x x = true.
Proof.
  destruct x as [s|s| |s m e]; simpl; intros H; try discriminate;
    unfold strict_eq, SFeqb; simpl.
  - reflexivity.
  - destruct s; reflexivity.
  - rewrite Z.compare_refl, Pos.compare_cont_refl.
    destruct s; reflexivity.
Qed.

Lemma or_zero_strict_eq (x : number) :
  isNaN x = false -> strict_eq (or_else x zero) x = true.
Proof.
  intros H. destruct (or_zero_cases x) as [[_ E]|[T E]]; rewrite E.
  - now apply strict_eq_refl.
  - destruct x; simpl in *; try discriminate; reflexivity.
Qed.

Lemma or_zero_not_nan (x : number) : isNaN (or_else x zero) = false.
Proof. destruct x; reflexivity. Qed.

End Operators.

(** ** The row of a record *)

Section Row.

Variable item : ExplorerApi.MixNodeResponseItem.
Variable mix_node : ExplorerApi.MixNode.
Variables pledge_amount total_delegation : ExplorerApi.Amount.
Hypothesis Hnode : ExplorerApi.mix_node item = Some mix_node.
Hypothesis Hpledge : ExplorerApi.pledge_amount item = Some pledge_amount.
Hypothesis Hdelegation :
  ExplorerApi.total_delegation item = Some total_delegation.

(** With its three nested objects present the function returns, and this
    is the row. *)
Lemma row_of_record :
  let pledge := or_else (Number (ExplorerApi.amount pledge_amount)) zero in
  let delegations :=
    or_else (Number (ExplorerApi.amount total_delegation)) zero in
  let totalBond := add pledge delegations in
  let stakeSaturation :=
    or_else (ExplorerApi.stake_saturation item) (JsStr "") in
  mixNodeResponseItemToMixnodeRowType item =
  inr {|
    id := ExplorerApi.owner item;
    status := ExplorerApi.status item;
    owner := ExplorerApi.owner item;
    identity_key := or_default (ExplorerApi.identity_key mix_node) "";
    bond := or_else totalBond zero;
    location :=
      or_default
        (chain (ExplorerApi.location item) ExplorerApi.country_name) "";
    self_percentage := fixed2 (div (mul pledge (of_N 100)) totalBond);
    host := or_default (ExplorerApi.host mix_node) "";
    layer := or_default (ExplorerApi.layer item) "";
    profit_percentage :=
      ToString
        (or_else (ExplorerApi.profit_margin_percent mix_node) (JsNum zero))
        ++ "%";
    avg_uptime := ToString (ExplorerApi.avg_uptime item) ++ "%";
    stake_saturation :=
      if String.eqb (typeof stakeSaturation) "number"
      then fixed2 (mul (Number stakeSaturation) (of_N 100)) ++ " %"
      else "-"
  |}.
Proof.
  intros pledge delegations totalBond stakeSaturation.
  unfold mixNodeResponseItemToMixnodeRowType.
  rewrite Hnode, Hpledge, Hdelegation. simpl get. unfold bind at 1 2, ret at 1 2.
  fold pledge delegations totalBond stakeSaturation.
  rewrite toFixed_2. unfold bind at 1 2, ret at 1.
  rewrite percent_or_dash.
  destruct (String.eqb (typeof stakeSaturation) "number").
  - rewrite toFixed_2. reflexivity.
  - reflexivity.
Qed.

End Row.

Lemma required_objects (item : ExplorerApi.MixNodeResponseItem) :
  has_required_objects item = true ->
  exists mn pa td,
    ExplorerApi.mix_node item = Some mn
    /\ ExplorerApi.pledge_amount item = Some pa
    /\ ExplorerApi.total_delegation item = Some td.
Proof.
  unfold has_required_objects.
  destruct (ExplorerApi.mix_node item) as [mn|]; try discriminate.
  destruct (ExplorerApi.pledge_amount item) as [pa|]; try discriminate.
  destruct (ExplorerApi.total_delegation item) as [td|]; try discriminate.
  intros _. now exists mn, pa, td.
Qed.

(** The function returns exactly on the records that have the three nested
    objects; on the others it throws a TypeError. *)
Lemma returns_iff_required (item : ExplorerApi.MixNodeResponseItem) :
  (exists row, mixNodeResponseItemToMixnodeRowType item = inr row)
  <-> has_required_objects item = true.
Proof.
  split.
  - intros [row H]. unfold has_required_objects.
    unfold mixNodeResponseItemToMixnodeRowType in H.
    destruct (ExplorerApi.pledge_amount item); [|discriminate H].
    destruct (ExplorerApi.total_delegation item); [|discriminate H].
    simpl get in H. unfold bind at 1 2, ret at 1 2 in H.
    rewrite toFixed_2 in H. unfold bind at 1 in H.
    destruct (ExplorerApi.mix_node item); [reflexivity|discriminate H].
  - intros H. destruct (required_objects item H) as (mn & pa & td & H1 & H2 & H3).
    eexists. apply (row_of_record item mn pa td H1 H2 H3).
Qed.

(** ** The collection mapper *)

Lemma Array_map_rows {A B : Type} (f : A -> Js B) (l : list A) :
  Forall (fun a => exists b, f a = inr b) l ->
  exists bs, Array_map f l = inr bs /\ Forall2 (fun a b => f a = inr b) l bs.
Proof.
  induction 1 as [|a l [b Hb] _ [bs [Hbs HF]]]; simpl.
  - exists []. split; [reflexivity|constructor].
  - exists (b :: bs). rewrite Hb; simpl. rewrite Hbs; simpl.
    split; [reflexivity|now constructor].
Qed.

Lemma Forall2_nth_error {A B : Type} (R : A -> B -> Prop) l l' :
  Forall2 R l l' ->
  forall i a, nth_error l i = Some a ->
  exists b, nth_error l' i = Some b /\ R a b.
Proof.
  induction 1 as [|x y l l' Hxy _ IH]; intros [|i] a; simpl;
    try discriminate.
  - intros [= <-]. now exists y.
  - apply IH.
Qed.

(** C1: for every sequence of records (each with its required nested
    objects), [mixnodeToGridRow] returns a sequence of rows of the same
    length, in the same order, whose i-th row is the row of the i-th
    record alone. *)
Theorem mixnodeToGridRow_one_to_one (items : ExplorerApi.MixNodeResponse) :
  Forall (fun item => has_required_objects item = true) items ->
  exists rows,
    mixnodeToGridRow (Some items) = inr rows
    /\ List.length rows = List.length items
    /\ forall i item, nth_error items i = Some item ->
         exists row, nth_error rows i = Some row
           /\ mixNodeResponseItemToMixnodeRowType item = inr row.
Proof.
  intros H.
  destruct (Array_map_rows mixNodeResponseItemToMixnodeRowType items)
    as [rows [Hrows HF]].
  - eapply Forall_impl; [|exact H].
    intros item Hitem. now apply returns_iff_required.
  - exists rows. split; [exact Hrows|]. split.
    + symmetry. eapply Forall2_length; exact HF.
    + now apply Forall2_nth_error.
Qed.

Lemma mixnodeToGridRow_one_to_one_witness :
  exists rows,
    mixnodeToGridRow (Some [record "600" "400" JsUndefined; bare_record])
    = inr rows
    /\ List.length rows = 2%nat
    /\ forall i item,
         nth_error [record "600" "400" JsUndefined; bare_record] i = Some item ->
         exists row, nth_error rows i = Some row
           /\ mixNodeResponseItemToMixnodeRowType item = inr row.
Proof.
  apply (mixnodeToGridRow_one_to_one
           [record "600" "400" JsUndefined; bare_record]).
  repeat constructor.
Defined.

(** C2: called with an absent input, [mixnodeToGridRow] returns the empty
    sequence: it returns, and what it returns is a sequence. *)
Theorem mixnodeToGridRow_absent : mixnodeToGridRow None = inr [].
Proof. reflexivity. Qed.

(** ** The row mapper *)

(** The amounts enter the result through [ExplorerApi.amount] alone. *)
Lemma with_own_amounts
  (item : ExplorerApi.MixNodeResponseItem) (pa td : ExplorerApi.Amount) :
  ExplorerApi.pledge_amount item = Some pa ->
  ExplorerApi.total_delegation item = Some td ->
  mixNodeResponseItemToMixnodeRowType
    (with_amounts (ExplorerApi.amount pa) (ExplorerApi.amount td) item)
  = mixNodeResponseItemToMixnodeRowType item.
Proof.
  intros Hp Hd.
  unfold mixNodeResponseItemToMixnodeRowType, with_amounts.
  cbn [ExplorerApi.pledge_amount ExplorerApi.total_delegation
       ExplorerApi.amount ExplorerApi.mix_node ExplorerApi.owner
       ExplorerApi.status ExplorerApi.location ExplorerApi.layer
       ExplorerApi.avg_uptime ExplorerApi.stake_saturation].
  rewrite Hp, Hd. reflexivity.
Qed.

(** [Number(amount) || 0] on an amount that converts to NaN: the result
    is the one of the amount 0. *)
Lemma nan_amount_as_zero
  (item : ExplorerApi.MixNodeResponseItem) (p d : JsValue) :
  (isNaN (Number p) = true ->
   mixNodeResponseItemToMixnodeRowType (with_amounts p d item)
   = mixNodeResponseItemToMixnodeRowType (with_amounts (JsNum zero) d item))
  /\ (isNaN (Number d) = true ->
      mixNodeResponseItemToMixnodeRowType (with_amounts p d item)
      = mixNodeResponseItemToMixnodeRowType
          (with_amounts p (JsNum zero) item)).
Proof.
  split; intros H;
    unfold mixNodeResponseItemToMixnodeRowType, with_amounts;
    cbn [ExplorerApi.pledge_amount ExplorerApi.total_delegation
         ExplorerApi.amount ExplorerApi.mix_node ExplorerApi.owner
         ExplorerApi.status ExplorerApi.location ExplorerApi.layer
         ExplorerApi.avg_uptime ExplorerApi.stake_saturation get bind ret];
    rewrite (or_zero_nan _ H); reflexivity.
Qed.

(** C3, as the program has it: on every record that has its [mix_node],
    [pledge_amount] and [total_delegation] objects,
    [mixNodeResponseItemToMixnodeRowType] returns a row and throws
    nothing, whatever the amounts and whichever other fields are missing.
    Each amount that does not convert to a number counts as 0: the row is
    the row of the same record with that amount 0.  A missing location
    object or country name, identity key, host or layer gives the empty
    string; a profit margin that is missing (or 0) gives ["0%"]; a stake
    saturation that is absent or not a Number gives the dash.  An absent
    [avg_uptime] is rendered ["undefined%"]. *)
Theorem row_mapper_never_throws (item : ExplorerApi.MixNodeResponseItem) :
  has_required_objects item = true ->
  exists row mn pa td,
    mixNodeResponseItemToMixnodeRowType item = inr row
    /\ ExplorerApi.mix_node item = Some mn
    /\ ExplorerApi.pledge_amount item = Some pa
    /\ ExplorerApi.total_delegation item = Some td
    /\ (isNaN (Number (ExplorerApi.amount pa)) = true ->
        mixNodeResponseItemToMixnodeRowType
          (with_amounts (JsNum zero) (ExplorerApi.amount td) item)
        = inr row)
    /\ (isNaN (Number (ExplorerApi.amount td)) = true ->
        mixNodeResponseItemToMixnodeRowType
          (with_amounts (ExplorerApi.amount pa) (JsNum zero) item)
        = inr row)
    /\ (isNaN (Number (ExplorerApi.amount pa)) = true ->
        isNaN (Number (ExplorerApi.amount td)) = true ->
        bond row = zero)
    /\ location row
       = match ExplorerApi.location item with
         | Some l =>
             match ExplorerApi.country_name l with
             | Some s => s
             | None => ""
             end
         | None => ""
         end
    /\ identity_key row
       = match ExplorerApi.identity_key mn with Some s => s | None => "" end
    /\ host row
       = match ExplorerApi.host mn with Some s => s | None => "" end
    /\ layer row
       = match ExplorerApi.layer item with Some s => s | None => "" end
    /\ (truthy (ExplorerApi.profit_margin_percent mn) = false ->
        profit_percentage row = "0%")
    /\ (String.eqb (typeof (ExplorerApi.stake_saturation item)) "number"
        = false ->
        stake_saturation row = "-")
    /\ (ExplorerApi.avg_uptime item = JsUndefined ->
        avg_uptime row = "undefined%").
Proof.
  intros H. destruct (required_objects item H) as (mn & pa & td & H1 & H2 & H3).
  pose proof (row_of_record item mn pa td H1 H2 H3) as Hrow.
  cbv zeta in Hrow.
  eexists; exists mn, pa, td.
  split; [exact Hrow|]. split; [exact H1|]. split; [exact H2|].
  split; [exact H3|].
  split; [|split].
  - intros Np. rewrite <- Hrow, <- (with_own_amounts item pa td H2 H3).
    symmetry. now apply nan_amount_as_zero.
  - intros Nd. rewrite <- Hrow, <- (with_own_amounts item pa td H2 H3).
    symmetry. now apply nan_amount_as_zero.
  - cbn [bond location identity_key host layer profit_percentage
         stake_saturation avg_uptime].
    rewrite !or_default_empty.
    split; [|split; [|split; [|split; [|split; [|split; [|split]]]]]].
    + intros Np Nd.
      rewrite (or_zero_nan _ Np), (or_zero_nan _ Nd). reflexivity.
    + destruct (ExplorerApi.location item); reflexivity.
    + reflexivity.
    + reflexivity.
    + reflexivity.
    + intros T. unfold or_else. rewrite T. reflexivity.
    + destruct (ExplorerApi.stake_saturation item) as [| |b|x|s];
        try reflexivity.
      * destruct b; reflexivity.
      * discriminate.
      * destruct s; reflexivity.
    + intros ->. reflexivity.
Qed.

Lemma row_mapper_never_throws_witness :
  exists row,
    mixNodeResponseItemToMixnodeRowType (record "12 nym" "400" JsNull)
    = inr row
    /\ mixNodeResponseItemToMixnodeRowType
         (with_amounts (JsNum zero) (JsStr "400")
            (record "12 nym" "400" JsNull))
       = inr row
    /\ location row = "Iceland"
    /\ stake_saturation row = "-".
Proof.
  destruct (row_mapper_never_throws (record "12 nym" "400" JsNull) eq_refl)
    as (row & mn & pa & td & Hrow & Hmn & Hpa & Htd & Hp & _ & _ & Hl & _
        & _ & _ & _ & Hs & _).
  injection Hpa as <-. injection Htd as <-.
  exists row. split; [exact Hrow|].
  split; [apply Hp; vm_compute; reflexivity|].
  split; [exact Hl|apply Hs; reflexivity].
Defined.

(** C3 as stated fails: a record without its [mix_node] makes the function
    throw a TypeError on the read of [item.mix_node.profit_margin_percent];
    and a record without [avg_uptime] gets ["undefined%"], which is none
    of 0, the empty string and the dash. *)
Lemma row_mapper_throws_without_mix_node :
  ExplorerApi.mix_node record_without_node = None
  /\ mixNodeResponseItemToMixnodeRowType record_without_node = inl TypeError
  /\ exists row,
       mixNodeResponseItemToMixnodeRowType bare_record = inr row
       /\ ExplorerApi.avg_uptime bare_record = JsUndefined
       /\ avg_uptime row = "undefined%".
Proof.
  split; [reflexivity|]. split; [vm_compute; reflexivity|].
  eexists. split; [|split].
  - apply (row_of_record bare_record
             {| ExplorerApi.identity_key := None;
                ExplorerApi.host := None;
                ExplorerApi.profit_margin_percent := JsUndefined |}
             {| ExplorerApi.amount := JsStr "12 nym" |}
             {| ExplorerApi.amount := JsUndefined |});
      reflexivity.
  - reflexivity.
  - reflexivity.
Qed.

(** C4, as the program has it: the two amounts are converted with
    [Number], 0 standing in for a NaN; [bond] is their sum, except that a
    NaN sum gives 0.  A sum that is infinite is emitted as it is. *)
Theorem bond_is_sum_or_zero
  (item : ExplorerApi.MixNodeResponseItem) (pa td : ExplorerApi.Amount) :
  has_required_objects item = true ->
  ExplorerApi.pledge_amount item = Some pa ->
  ExplorerApi.total_delegation item = Some td ->
  let p := Number (ExplorerApi.amount pa) in
  let d := Number (ExplorerApi.amount td) in
  let pledge := or_else p zero in
  let delegations := or_else d zero in
  exists row,
    mixNodeResponseItemToMixnodeRowType item = inr row
    /\ (isNaN p = true -> pledge = zero)
    /\ (isNaN p = false -> strict_eq pledge p = true)
    /\ (isNaN d = true -> delegations = zero)
    /\ (isNaN d = false -> strict_eq delegations d = true)
    /\ (isNaN (add pledge delegations) = true -> bond row = zero)
    /\ (isNaN (add pledge delegations) = false ->
        strict_eq (bond row) (add pledge delegations) = true)
    /\ (forall s, add pledge delegations = S754_infinity s ->
        bond row = S754_infinity s).
Proof.
  intros H Hp Hd p d pledge delegations.
  destruct (required_objects item H) as (mn & pa' & td' & H1 & H2 & H3).
  rewrite Hp in H2; rewrite Hd in H3.
  injection H2 as <-; injection H3 as <-.
  eexists. split; [apply (row_of_record item mn pa td H1 Hp Hd)|].
  cbn [bond]. fold p d. fold pledge delegations.
  repeat split.
  - apply or_zero_nan.
  - apply or_zero_strict_eq.
  - apply or_zero_nan.
  - apply or_zero_strict_eq.
  - apply or_zero_nan.
  - apply or_zero_strict_eq.
  - intros s ->. reflexivity.
Qed.

Lemma bond_is_sum_or_zero_witness :
  exists row,
    mixNodeResponseItemToMixnodeRowType (record "-Infinity" "Infinity" JsNull)
    = inr row
    /\ bond row = zero.
Proof.
  destruct (bond_is_sum_or_zero
              (record "-Infinity" "Infinity" JsNull)
              {| ExplorerApi.amount := JsStr "-Infinity" |}
              {| ExplorerApi.amount := JsStr "Infinity" |}
              eq_refl eq_refl eq_refl)
    as (row & Hrow & _ & _ & _ & _ & Hnan & _).
  exists row. split; [exact Hrow|].
  apply Hnan. vm_compute. reflexivity.
Defined.

(** C4 as stated fails: with pledge ["Infinity"] and delegation ["400"] the
    sum is not finite and [bond] is that infinite sum, not 0. *)
Lemma bond_of_infinite_sum_is_not_zero :
  exists row,
    mixNodeResponseItemToMixnodeRowType (record "Infinity" "400" JsUndefined)
    = inr row
    /\ isFinite (add (or_else (Number (JsStr "Infinity")) zero)
                     (or_else (Number (JsStr "400")) zero)) = false
    /\ bond row = Infinity
    /\ bond row <> zero.
Proof.
  eexists. split.
  - apply (row_of_record (record "Infinity" "400" JsUndefined)
             (node (JsNum (of_N 10)))
             {| ExplorerApi.amount := JsStr "Infinity" |}
             {| ExplorerApi.amount := JsStr "400" |});
      reflexivity.
  - cbn [bond ExplorerApi.amount]. split; [|split].
    + vm_compute. reflexivity.
    + vm_compute. reflexivity.
    + vm_compute. discriminate.
Qed.

(** C5: a record whose pledge amount is ["600"] and whose total delegation
    is ["400"] gives a row with [bond] 1000 and [self_percentage]
    ["60.00"]. *)
Theorem bond_600_400 (item : ExplorerApi.MixNodeResponseItem) :
  has_required_objects item = true ->
  ExplorerApi.pledge_amount item
  = Some {| ExplorerApi.amount := JsStr "600" |} ->
  ExplorerApi.total_delegation item
  = Some {| ExplorerApi.amount := JsStr "400" |} ->
  exists row,
    mixNodeResponseItemToMixnodeRowType item = inr row
    /\ bond row = of_N 1000
    /\ self_percentage row = "60.00".
Proof.
  intros H Hp Hd.
  destruct (required_objects item H) as (mn & pa & td & H1 & _ & _).
  eexists. split; [apply (row_of_record item mn _ _ H1 Hp Hd)|].
  cbn [bond self_percentage ExplorerApi.amount].
  split; vm_compute; reflexivity.
Qed.

Lemma bond_600_400_witness :
  exists row,
    mixNodeResponseItemToMixnodeRowType (record "600" "400" JsUndefined)
    = inr row
    /\ bond row = of_N 1000
    /\ self_percentage row = "60.00".
Proof.
  apply (bond_600_400 (record "600" "400" JsUndefined)); reflexivity.
Defined.

(** C6, as the program has it: a raw [stake_saturation] that is a Number
    other than 0 and NaN is multiplied by 100, formatted with two decimals
    and followed by [" %"]; a raw value that is absent or not a Number
    gives ["-"].  So 0.8552 gives ["85.52 %"] and an absent value
    ["-"]. *)
Theorem stake_saturation_rendering (item : ExplorerApi.MixNodeResponseItem) :
  has_required_objects item = true ->
  exists row,
    mixNodeResponseItemToMixnodeRowType item = inr row
    /\ (forall x,
          ExplorerApi.stake_saturation item = JsNum x -> truthy x = true ->
          exists s,
            toFixed (mul x (of_N 100)) 2 = inr s
            /\ stake_saturation row = s ++ " %")
    /\ (String.eqb (typeof (ExplorerApi.stake_saturation item)) "number"
        = false ->
        stake_saturation row = "-")
    /\ (ExplorerApi.stake_saturation item = JsNum n_0_8552 ->
        stake_saturation row = "85.52 %")
    /\ (ExplorerApi.stake_saturation item = JsUndefined ->
        stake_saturation row = "-").
Proof.
  intros H. destruct (required_objects item H) as (mn & pa & td & H1 & H2 & H3).
  eexists. split; [apply (row_of_record item mn pa td H1 H2 H3)|].
  cbn [stake_saturation]. repeat split.
  - intros x -> Hx. exists (fixed2 (mul x (of_N 100))).
    split; [apply toFixed_2|].
    unfold or_else. cbn [truthy value_truthy]. rewrite Hx. reflexivity.
  - destruct (ExplorerApi.stake_saturation item) as [| |b|x|s];
      try reflexivity.
    + destruct b; reflexivity.
    + discriminate.
    + destruct s; reflexivity.
  - intros ->. vm_compute. reflexivity.
  - intros ->. reflexivity.
Qed.

Lemma stake_saturation_rendering_witness :
  exists row,
    mixNodeResponseItemToMixnodeRowType (record "600" "400" (JsNum n_0_8552))
    = inr row
    /\ stake_saturation row = "85.52 %".
Proof.
  destruct (stake_saturation_rendering (record "600" "400" (JsNum n_0_8552)))
    as (row & Hrow & _ & _ & Hs & _).
  - reflexivity.
  - exists row. split; [exact Hrow|]. apply Hs. reflexivity.
Defined.

(** C6 as stated fails: a raw [stake_saturation] of 0 is a Number whose
    hundredfold formats as ["0.00"], and the row holds ["-"]. *)
Lemma stake_saturation_zero_is_not_formatted :
  exists row,
    mixNodeResponseItemToMixnodeRowType (record "600" "400" (JsNum zero))
    = inr row
    /\ typeof (JsNum zero) = "number"
    /\ toFixed (mul zero (of_N 100)) 2 = inr "0.00"
    /\ stake_saturation row <> "0.00 %".
Proof.
  eexists. split.
  - apply (row_of_record (record "600" "400" (JsNum zero))
             (node (JsNum (of_N 10)))
             {| ExplorerApi.amount := JsStr "600" |}
             {| ExplorerApi.amount := JsStr "400" |});
      reflexivity.
  - cbn [stake_saturation]. split; [reflexivity|]. split.
    + vm_compute. reflexivity.
    + vm_compute. discriminate.
Qed.

(** C7: the row's [avg_uptime] is the raw value converted to a string and
    followed by ["%"], whether the raw value is present or not; the
    [|| '-'] after the template literal never takes its right operand, and
    no record gives a row whose [avg_uptime] is ["-"]. *)
Theorem avg_uptime_always_rendered (item : ExplorerApi.MixNodeResponseItem) :
  (has_required_objects item = true ->
   exists row, mixNodeResponseItemToMixnodeRowType item = inr row)
  /\ (forall row,
        mixNodeResponseItemToMixnodeRowType item = inr row ->
        avg_uptime row = ToString (ExplorerApi.avg_uptime item) ++ "%"
        /\ avg_uptime row <> "-")
  /\ or_else (ToString (ExplorerApi.avg_uptime item) ++ "%") "-"
     = ToString (ExplorerApi.avg_uptime item) ++ "%".
Proof.
  split; [apply returns_iff_required|]. split; [|apply percent_or_dash].
  intros row Hrow.
  assert (H : has_required_objects item = true).
  { apply returns_iff_required. now exists row. }
  destruct (required_objects item H) as (mn & pa & td & H1 & H2 & H3).
  rewrite (row_of_record item mn pa td H1 H2 H3) in Hrow.
  injection Hrow as <-. cbn [avg_uptime].
  split; [reflexivity|apply percent_is_not_dash].
Qed.

Lemma avg_uptime_always_rendered_witness :
  exists row,
    mixNodeResponseItemToMixnodeRowType bare_record = inr row
    /\ avg_uptime row = "undefined%".
Proof.
  destruct (avg_uptime_always_rendered bare_record) as (Hex & Hrow & _).
  destruct (Hex eq_refl) as [row E].
  exists row. split; [exact E|]. apply (Hrow row E).
Defined.

(** C8, as the program has it: on a record that has its [mix_node],
    [pledge_amount] and [total_delegation] objects, each of [location],
    [identity_key], [host] and [layer] is the raw field when the record
    has it, and the empty string when the field, or the location object
    around it, is missing. *)
Theorem text_fields_default_to_empty (item : ExplorerApi.MixNodeResponseItem) :
  has_required_objects item = true ->
  exists row mn,
    mixNodeResponseItemToMixnodeRowType item = inr row
    /\ ExplorerApi.mix_node item = Some mn
    /\ location row
       = match ExplorerApi.location item with
         | Some l =>
             match ExplorerApi.country_name l with
             | Some s => s
             | None => ""
             end
         | None => ""
         end
    /\ identity_key row
       = match ExplorerApi.identity_key mn with Some s => s | None => "" end
    /\ host row
       = match ExplorerApi.host mn with Some s => s | None => "" end
    /\ layer row
       = match ExplorerApi.layer item with Some s => s | None => "" end.
Proof.
  intros H. destruct (required_objects item H) as (mn & pa & td & H1 & H2 & H3).
  eexists; exists mn.
  split; [apply (row_of_record item mn pa td H1 H2 H3)|].
  cbn [location identity_key host layer].
  rewrite !or_default_empty. repeat split; try assumption.
  destruct (ExplorerApi.location item); reflexivity.
Qed.

Lemma text_fields_default_to_empty_witness :
  exists row,
    mixNodeResponseItemToMixnodeRowType bare_record = inr row
    /\ location row = "" /\ identity_key row = ""
    /\ host row = "" /\ layer row = "".
Proof.
  destruct (text_fields_default_to_empty bare_record eq_refl)
    as (row & mn & Hrow & Hmn & Hl & Hi & Hh & Hy).
  injection Hmn as <-.
  exists row. split; [exact Hrow|]. repeat split; assumption.
Defined.

(** C8 as stated fails: [host] and [identity_key] are fields of the
    [mix_node] object, and on a record without that object the function
    throws on line 28 although [item?.mix_node?.host] alone would give
    [undefined]: no row is returned, so none with an empty [host]. *)
Lemma host_without_mix_node_is_not_defaulted :
  ExplorerApi.mix_node record_without_node = None
  /\ chain (ExplorerApi.mix_node record_without_node) ExplorerApi.host = None
  /\ mixNodeResponseItemToMixnodeRowType record_without_node = inl TypeError
  /\ ~ (exists row,
          mixNodeResponseItemToMixnodeRowType record_without_node = inr row
          /\ host row = "" /\ identity_key row = "").
Proof.
  split; [reflexivity|]. split; [reflexivity|].
  assert (E : mixNodeResponseItemToMixnodeRowType record_without_node
              = inl TypeError) by (vm_compute; reflexivity).
  split; [exact E|].
  intros (row & Hrow & _). rewrite E in Hrow. discriminate Hrow.
Qed.

(** C9: when [pledge] and [delegations], the two amounts after
    [Number(...) || 0], are both 0 (the amounts parse to 0, or do not
    parse), [totalBond] is 0 and the row's [self_percentage] is
    ["NaN"]. *)
Theorem self_percentage_of_zero_bond
  (item : ExplorerApi.MixNodeResponseItem) (pa td : ExplorerApi.Amount) :
  has_required_objects item = true ->
  ExplorerApi.pledge_amount item = Some pa ->
  ExplorerApi.total_delegation item = Some td ->
  let pledge := or_else (Number (ExplorerApi.amount pa)) zero in
  let delegations := or_else (Number (ExplorerApi.amount td)) zero in
  pledge = zero ->
  delegations = zero ->
  exists row,
    mixNodeResponseItemToMixnodeRowType item = inr row
    /\ add pledge delegations = zero
    /\ bond row = zero
    /\ self_percentage row = "NaN".
Proof.
  intros H Hp Hd pledge delegations Zp Zd.
  destruct (required_objects item H) as (mn & _ & _ & H1 & _ & _).
  eexists. split; [apply (row_of_record item mn pa td H1 Hp Hd)|].
  cbn [bond self_percentage]. fold pledge delegations. rewrite Zp, Zd.
  repeat split; vm_compute; reflexivity.
Qed.

Lemma self_percentage_of_zero_bond_witness :
  exists row,
    mixNodeResponseItemToMixnodeRowType (record "0" "0" JsUndefined) = inr row
    /\ bond row = zero
    /\ self_percentage row = "NaN".
Proof.
  destruct (self_percentage_of_zero_bond
              (record "0" "0" JsUndefined)
              {| ExplorerApi.amount := JsStr "0" |}
              {| ExplorerApi.amount := JsStr "0" |}
              eq_refl eq_refl eq_refl eq_refl eq_refl)
    as (row & Hrow & _ & Hb & Hs).
  exists row. repeat split; assumption.
Defined.

(** C10: a raw [stake_saturation] that is the Number 0, of either sign,
    gives ["-"]: [|| ''] has replaced it by the empty string before
    [typeof] looks at it.  Formatting it would have given ["0.00 %"]. *)
Theorem stake_saturation_zero_is_dash
  (item : ExplorerApi.MixNodeResponseItem) (s : bool) :
  has_required_objects item = true ->
  ExplorerApi.stake_saturation item = JsNum (S754_zero s) ->
  exists row,
    mixNodeResponseItemToMixnodeRowType item = inr row
    /\ or_else (ExplorerApi.stake_saturation item) (JsStr "") = JsStr ""
    /\ stake_saturation row = "-"
    /\ toFixed (mul (S754_zero s) (of_N 100)) 2 = inr "0.00".
Proof.
  intros H Hs.
  destruct (required_objects item H) as (mn & pa & td & H1 & H2 & H3).
  eexists. split; [apply (row_of_record item mn pa td H1 H2 H3)|].
  cbn [stake_saturation]. rewrite Hs.
  split; [reflexivity|]. split; [reflexivity|].
  destruct s; vm_compute; reflexivity.
Qed.

Lemma stake_saturation_zero_is_dash_witness :
  exists row,
    mixNodeResponseItemToMixnodeRowType (record "600" "400" (JsNum zero))
    = inr row
    /\ stake_saturation row = "-".
Proof.
  destruct (stake_saturation_zero_is_dash
              (record "600" "400" (JsNum zero)) false eq_refl eq_refl)
    as (row & Hrow & _ & Hs & _).
  exists row. split; assumption.
Defined.

(** * Further properties of the two functions *)

(** ** Shared lemmas *)

(** What a returned row is made of. *)
Lemma row_inversion (item : ExplorerApi.MixNodeResponseItem)
  (row : MixnodeRowType) :
  mixNodeResponseItemToMixnodeRowType item = inr row ->
  exists mn pa td,
    ExplorerApi.mix_node item = Some mn
    /\ ExplorerApi.pledge_amount item = Some pa
    /\ ExplorerApi.total_delegation item = Some td
    /\ id row = ExplorerApi.owner item
    /\ owner row = ExplorerApi.owner item
    /\ status row = ExplorerApi.status item
    /\ bond row
       = or_else (add (or_else (Number (ExplorerApi.amount pa)) zero)
                      (or_else (Number (ExplorerApi.amount td)) zero)) zero
    /\ self_percentage row
       = fixed2 (div (mul (or_else (Number (ExplorerApi.amount pa)) zero)
                          (of_N 100))
                     (add (or_else (Number (ExplorerApi.amount pa)) zero)
                          (or_else (Number (ExplorerApi.amount td)) zero)))
    /\ profit_percentage row
       = ToString (or_else (ExplorerApi.profit_margin_percent mn)
                           (JsNum zero)) ++ "%"
    /\ stake_saturation row
       = (if String.eqb
               (typeof (or_else (ExplorerApi.stake_saturation item)
                                (JsStr ""))) "number"
          then fixed2 (mul (Number (or_else (ExplorerApi.stake_saturation item)
                                            (JsStr ""))) (of_N 100)) ++ " %"
          else "-").
Proof.
  intros Hrow.
  assert (H : has_required_objects item = true).
  { apply returns_iff_required. now exists row. }
  destruct (required_objects item H) as (mn & pa & td & H1 & H2 & H3).
  rewrite (row_of_record item mn pa td H1 H2 H3) in Hrow.
  injection Hrow as <-. exists mn, pa, td.
  cbn [id owner status bond self_percentage profit_percentage
       stake_saturation].
  repeat split; assumption.
Qed.

(** The only exception the row mapper raises is the TypeError of a read
    on a missing object. *)
Lemma row_mapper_error (item : ExplorerApi.MixNodeResponseItem) :
  has_required_objects item = false ->
  mixNodeResponseItemToMixnodeRowType item = inl TypeError.
Proof.
  unfold has_required_objects, mixNodeResponseItemToMixnodeRowType.
  destruct (ExplorerApi.pledge_amount item) as [pa|]; [|reflexivity].
  destruct (ExplorerApi.total_delegation item) as [td|]; [|reflexivity].
  destruct (ExplorerApi.mix_node item) as [mn|]; [discriminate|].
  intros _. simpl get. unfold bind at 1 2, ret at 1 2.
  rewrite toFixed_2. reflexivity.
Qed.

Lemma Array_map_app {A B : Type} (f : A -> Js B) (xs ys : list A) :
  Array_map f (xs ++ ys)%list
  = (rx <- Array_map f xs ;; ry <- Array_map f ys ;; ret (rx ++ ry)%list).
Proof.
  induction xs as [|a xs IH]; simpl.
  - destruct (Array_map f ys); reflexivity.
  - destruct (f a) as [e|b]; simpl; [reflexivity|].
    rewrite IH. destruct (Array_map f xs) as [e|rx]; simpl; [reflexivity|].
    destruct (Array_map f ys); reflexivity.
Qed.

Lemma Array_map_returned {A B : Type} (f : A -> Js B) (l : list A) :
  forall bs, Array_map f l = inr bs -> Forall2 (fun a b => f a = inr b) l bs.
Proof.
  induction l as [|a l IH]; simpl; intros bs H.
  - injection H as <-. constructor.
  - destruct (f a) as [e|b] eqn:Ea; simpl in H; [discriminate|].
    destruct (Array_map f l) as [e|bs'] eqn:El; simpl in H; [discriminate|].
    injection H as <-. constructor; auto.
Qed.

Lemma space_percent_is_not_dash (s : string) : s ++ " %" <> "-".
Proof.
  destruct s as [|c [|c' s']]; simpl; discriminate.
Qed.

Lemma or_zero_not_negative_zero (x : number) :
  or_else x zero <> S754_zero true.
Proof. destruct x as [[|]|[|]| |[|] m e]; discriminate. Qed.

(** ** The grid *)

(** X1: [mixnodeToGridRow] returns rows exactly when every record has
    its required nested objects; one record without them makes the whole
    call throw a TypeError, whatever the other records are. *)
Theorem grid_throws_on_one_bad_record (items : ExplorerApi.MixNodeResponse) :
  (forallb has_required_objects items = true ->
   exists rows, mixnodeToGridRow (Some items) = inr rows)
  /\ (forallb has_required_objects items = false ->
      mixnodeToGridRow (Some items) = inl TypeError).
Proof.
  unfold mixnodeToGridRow. simpl or_default. unfold or_else; simpl.
  induction items as [|a l [IHt IHf]]; simpl.
  - split; [intros _; now exists []|discriminate].
  - destruct (has_required_objects a) eqn:Ha; simpl.
    + destruct (proj2 (returns_iff_required a) Ha) as [r Hr].
      rewrite Hr; simpl. split; intros H.
      * destruct (IHt H) as [rows ->]. simpl. now exists (r :: rows).
      * rewrite (IHf H). reflexivity.
    + rewrite (row_mapper_error a Ha). simpl.
      split; [discriminate|reflexivity].
Qed.

Lemma grid_throws_on_one_bad_record_witness :
  mixnodeToGridRow
    (Some [record "600" "400" JsUndefined; record_without_node; bare_record])
  = inl TypeError.
Proof.
  apply (grid_throws_on_one_bad_record
           [record "600" "400" JsUndefined; record_without_node; bare_record]).
  reflexivity.
Defined.

(** X2: the rows of a concatenation are the rows of the first part
    followed by the rows of the second, and the call throws when either
    part does. *)
Theorem mixnodeToGridRow_app (xs ys : ExplorerApi.MixNodeResponse) :
  mixnodeToGridRow (Some (xs ++ ys)%list)
  = (rx <- mixnodeToGridRow (Some xs) ;;
     ry <- mixnodeToGridRow (Some ys) ;;
     ret (rx ++ ry)%list).
Proof. apply Array_map_app. Qed.

(** X3: in a returned grid the [id]s and the [owner]s of the rows are the
    owners of the records, and the statuses their statuses, in the order
    of the input. *)
Theorem grid_keys_are_owners
  (items : ExplorerApi.MixNodeResponse) (rows : list MixnodeRowType) :
  mixnodeToGridRow (Some items) = inr rows ->
  map id rows = map ExplorerApi.owner items
  /\ map owner rows = map ExplorerApi.owner items
  /\ map status rows = map ExplorerApi.status items.
Proof.
  intros H.
  change (Array_map mixNodeResponseItemToMixnodeRowType items = inr rows) in H.
  apply Array_map_returned in H.
  induction H as [|item row l l' Hrow _ (IH1 & IH2 & IH3)]; simpl.
  - repeat split.
  - destruct (row_inversion item row Hrow)
      as (_ & _ & _ & _ & _ & _ & E1 & E2 & E3 & _).
    rewrite E1, E2, E3, IH1, IH2, IH3. repeat split.
Qed.

Lemma grid_keys_are_owners_witness :
  exists rows,
    mixnodeToGridRow (Some [record "0" "7" JsNull; bare_record]) = inr rows
    /\ map id rows = ["n1q8w7e6"; "n1q8w7e6"]
    /\ map status rows = ["active"; "inactive"].
Proof.
  destruct (mixnodeToGridRow (Some [record "0" "7" JsNull; bare_record]))
    as [e|rows] eqn:E; [vm_compute in E; discriminate E|].
  exists rows. split; [reflexivity|].
  destruct (grid_keys_are_owners _ rows E) as (H1 & _ & H3).
  split; assumption.
Defined.

(** ** The fields of a row *)

Lemma substring_length (s : string) :
  forall n m, (n + m <= String.length s)%nat ->
  String.length (substring n m s) = m.
Proof.
  induction s as [|c s IH]; intros [|n] [|m]; simpl; intros H;
    try reflexivity; try lia.
  - rewrite IH; [reflexivity|lia].
  - apply IH. lia.
  - apply IH. lia.
Qed.

Lemma zeros_length (n : nat) : String.length (zeros n) = n.
Proof. induction n; simpl; congruence. Qed.

Lemma append_length (s t : string) :
  String.length (s ++ t) = (String.length s + String.length t)%nat.
Proof. induction s; simpl; congruence. Qed.

(** [x.toFixed(2)] on a finite [x] below [10 ^ 21] in magnitude: an
    optional minus, at least one character, the point and two more. *)
Lemma toFixed_2_shape (x : number) :
  isFinite x = true ->
  Qle_bool (pow10 21) (Qabs (to_Q x)) = false ->
  exists sign a b,
    fixed2 x = sign ++ a ++ "." ++ b
    /\ (sign = "" \/ sign = "-")
    /\ (1 <= String.length a)%nat
    /\ String.length b = 2%nat.
Proof.
  intros Hfin Hsmall. unfold fixed2, toFixed.
  change (100 <? 2)%nat with false; cbv iota.
  rewrite Hfin; cbn [negb]. cbv zeta. rewrite Hsmall.
  set (d := digits_of _).
  set (D := zeros (3 - String.length d) ++ d).
  assert (HD : (3 <= String.length D)%nat).
  { unfold D. rewrite append_length, zeros_length. lia. }
  exists (if match (to_Q x ?= 0)%Q with Lt => true | _ => false end
          then "-" else ""),
         (substring 0 (String.length D - 2) D),
         (substring (String.length D - 2) 2 D).
  split; [|split; [|split]].
  - destruct (match (to_Q x ?= 0)%Q with Lt => true | _ => false end);
      reflexivity.
  - destruct (match (to_Q x ?= 0)%Q with Lt => true | _ => false end); auto.
  - rewrite substring_length; lia.
  - apply substring_length. lia.
Qed.

(** [x.toFixed(2)] on an [x] that is not finite. *)
Lemma toFixed_2_not_finite (x : number) :
  isFinite x = false ->
  fixed2 x = "NaN" \/ fixed2 x = "Infinity" \/ fixed2 x = "-Infinity".
Proof.
  destruct x as [s|[|]| |s m e]; try discriminate; intros _;
    [right; right|right; left|left]; reflexivity.
Qed.

(** X4: [profit_percentage] is the profit margin followed by ["%"]; a
    margin that is missing, [null], 0 or NaN is rendered as ["0%"].  The
    field is never empty. *)
Theorem profit_percentage_rendering
  (item : ExplorerApi.MixNodeResponseItem) (mn : ExplorerApi.MixNode) :
  has_required_objects item = true ->
  ExplorerApi.mix_node item = Some mn ->
  exists row,
    mixNodeResponseItemToMixnodeRowType item = inr row
    /\ profit_percentage row
       = (if truthy (ExplorerApi.profit_margin_percent mn)
          then ToString (ExplorerApi.profit_margin_percent mn) ++ "%"
          else "0%")
    /\ profit_percentage row <> "".
Proof.
  intros H Hmn.
  destruct (required_objects item H) as (mn' & pa & td & H1 & H2 & H3).
  rewrite Hmn in H1. injection H1 as <-.
  eexists. split; [apply (row_of_record item mn pa td Hmn H2 H3)|].
  cbn [profit_percentage]. unfold or_else. split.
  - destruct (truthy (ExplorerApi.profit_margin_percent mn)); reflexivity.
  - intros E.
    assert (F : is_empty
                  (ToString
                     (if truthy (ExplorerApi.profit_margin_percent mn)
                      then ExplorerApi.profit_margin_percent mn
                      else JsNum zero) ++ "%") = false)
      by now apply append_nonempty.
    rewrite E in F. discriminate F.
Qed.

Lemma profit_percentage_rendering_witness :
  exists row,
    mixNodeResponseItemToMixnodeRowType bare_record = inr row
    /\ profit_percentage row = "0%".
Proof.
  destruct (profit_percentage_rendering bare_record
              {| ExplorerApi.identity_key := None;
                 ExplorerApi.host := None;
                 ExplorerApi.profit_margin_percent := JsUndefined |}
              eq_refl eq_refl)
    as (row & Hrow & Hp & _).
  exists row. split; assumption.
Defined.

(** X5: the [bond] of a returned row is never NaN and never the negative
    zero: it is 0 or a Number that is truthy. *)
Theorem bond_is_never_nan
  (item : ExplorerApi.MixNodeResponseItem) (row : MixnodeRowType) :
  mixNodeResponseItemToMixnodeRowType item = inr row ->
  isNaN (bond row) = false
  /\ bond row <> S754_zero true
  /\ (bond row = zero \/ truthy (bond row) = true).
Proof.
  intros Hrow.
  destruct (row_inversion item row Hrow)
    as (mn & pa & td & _ & _ & _ & _ & _ & _ & -> & _).
  split; [apply or_zero_not_nan|]. split; [apply or_zero_not_negative_zero|].
  destruct (or_zero_cases
              (add (or_else (Number (ExplorerApi.amount pa)) zero)
                   (or_else (Number (ExplorerApi.amount td)) zero)))
    as [[T ->]|[_ ->]]; auto.
Qed.

Lemma bond_is_never_nan_witness :
  exists row,
    mixNodeResponseItemToMixnodeRowType (record "-Infinity" "Infinity" JsNull)
    = inr row
    /\ isNaN (bond row) = false.
Proof.
  destruct (mixNodeResponseItemToMixnodeRowType
              (record "-Infinity" "Infinity" JsNull))
    as [e|row] eqn:E; [vm_compute in E; discriminate E|].
  exists row. split; [reflexivity|].
  apply (bond_is_never_nan _ row E).
Defined.

(** X6: the row's [stake_saturation] is the dash exactly when the raw
    value is not a Number, or is 0 or NaN; otherwise it ends in [" %"]. *)
Theorem stake_saturation_dash_iff
  (item : ExplorerApi.MixNodeResponseItem) (row : MixnodeRowType) :
  mixNodeResponseItemToMixnodeRowType item = inr row ->
  let formatted :=
    match ExplorerApi.stake_saturation item with
    | JsNum x => truthy x
    | _ => false
    end in
  (stake_saturation row = "-" <-> formatted = false)
  /\ (formatted = true ->
      exists s, stake_saturation row = s ++ " %").
Proof.
  intros Hrow formatted.
  destruct (row_inversion item row Hrow)
    as (mn & pa & td & _ & _ & _ & _ & _ & _ & _ & _ & _ & ->).
  unfold formatted, or_else.
  destruct (ExplorerApi.stake_saturation item) as [| |b|x|s];
    cbn [truthy value_truthy].
  - split; [split; reflexivity|discriminate].
  - split; [split; reflexivity|discriminate].
  - destruct b; (split; [split; reflexivity|discriminate]).
  - destruct (truthy x); cbn [typeof String.eqb Ascii.eqb Bool.eqb].
    + split.
      * split; [|discriminate].
        intros E. now apply space_percent_is_not_dash in E.
      * intros _. eexists. reflexivity.
    + split; [split; reflexivity|discriminate].
  - destruct (truthy s); (split; [split; reflexivity|discriminate]).
Qed.

Lemma stake_saturation_dash_iff_witness :
  exists row,
    mixNodeResponseItemToMixnodeRowType (record "600" "400" (JsStr "0.85"))
    = inr row
    /\ stake_saturation row = "-".
Proof.
  destruct (mixNodeResponseItemToMixnodeRowType
              (record "600" "400" (JsStr "0.85")))
    as [e|row] eqn:E; [vm_compute in E; discriminate E|].
  exists row. split; [reflexivity|].
  apply (stake_saturation_dash_iff _ row E). reflexivity.
Defined.

(** X7: amounts enter the row only through [Number(amount) || 0]: a
    record whose pledge or delegation amount converts to NaN (an
    unparsable string, a missing amount) gives exactly the result of the
    same record with that amount 0. *)
Theorem unparsable_amount_counts_as_zero
  (item : ExplorerApi.MixNodeResponseItem) (p d : JsValue) :
  (isNaN (Number p) = true ->
   mixNodeResponseItemToMixnodeRowType (with_amounts p d item)
   = mixNodeResponseItemToMixnodeRowType (with_amounts (JsNum zero) d item))
  /\ (isNaN (Number d) = true ->
      mixNodeResponseItemToMixnodeRowType (with_amounts p d item)
      = mixNodeResponseItemToMixnodeRowType
          (with_amounts p (JsNum zero) item)).
Proof.
  split; intros H;
    unfold mixNodeResponseItemToMixnodeRowType, with_amounts;
    cbn [ExplorerApi.pledge_amount ExplorerApi.total_delegation
         ExplorerApi.amount ExplorerApi.mix_node ExplorerApi.owner
         ExplorerApi.status ExplorerApi.location ExplorerApi.layer
         ExplorerApi.avg_uptime ExplorerApi.stake_saturation get bind ret];
    rewrite (or_zero_nan _ H); reflexivity.
Qed.

Lemma unparsable_amount_counts_as_zero_witness :
  mixNodeResponseItemToMixnodeRowType
    (with_amounts (JsStr "12 nym") (JsStr "400") bare_record)
  = mixNodeResponseItemToMixnodeRowType
      (with_amounts (JsNum zero) (JsStr "400") bare_record).
Proof.
  apply (unparsable_amount_counts_as_zero
           bare_record (JsStr "12 nym") (JsStr "400")).
  vm_compute. reflexivity.
Defined.

(** X8: with a pledge of 0 and delegations that are neither 0 nor NaN,
    of either sign, finite or not, [self_percentage] is ["0.00"] and
    [bond] is the delegations. *)
Theorem self_percentage_without_pledge
  (item : ExplorerApi.MixNodeResponseItem) (pa td : ExplorerApi.Amount) :
  has_required_objects item = true ->
  ExplorerApi.pledge_amount item = Some pa ->
  ExplorerApi.total_delegation item = Some td ->
  let pledge := or_else (Number (ExplorerApi.amount pa)) zero in
  let delegations := or_else (Number (ExplorerApi.amount td)) zero in
  pledge = zero ->
  truthy delegations = true ->
  exists row,
    mixNodeResponseItemToMixnodeRowType item = inr row
    /\ self_percentage row = "0.00"
    /\ bond row = delegations.
Proof.
  intros H Hp Hd pledge delegations Zp Td.
  destruct (required_objects item H) as (mn & _ & _ & H1 & _ & _).
  eexists. split; [apply (row_of_record item mn pa td H1 Hp Hd)|].
  cbn [bond self_percentage]. fold pledge delegations. rewrite Zp.
  replace (mul zero (of_N 100)) with zero by (vm_compute; reflexivity).
  destruct delegations as [s|s| |s m e]; try discriminate Td.
  - split; [destruct s; vm_compute; reflexivity|reflexivity].
  - split; [destruct s; vm_compute; reflexivity|reflexivity].
Qed.

Lemma self_percentage_without_pledge_witness :
  exists row,
    mixNodeResponseItemToMixnodeRowType (record "0" "1500" JsUndefined)
    = inr row
    /\ self_percentage row = "0.00"
    /\ bond row = of_N 1500.
Proof.
  destruct (self_percentage_without_pledge
              (record "0" "1500" JsUndefined)
              {| ExplorerApi.amount := JsStr "0" |}
              {| ExplorerApi.amount := JsStr "1500" |}
              eq_refl eq_refl eq_refl eq_refl eq_refl)
    as (row & Hrow & Hs & Hb).
  exists row. repeat split; assumption.
Defined.

(** X9: [self_percentage] is the ratio [pledge * 100 / totalBond] under
    [toFixed(2)]: when the ratio is not finite it is ["NaN"],
    ["Infinity"] or ["-Infinity"]; when it is finite and below [10 ^ 21]
    in magnitude it is an optional minus, an integer part, a point and
    exactly two more characters. *)
Theorem self_percentage_two_decimals
  (item : ExplorerApi.MixNodeResponseItem) (pa td : ExplorerApi.Amount) :
  has_required_objects item = true ->
  ExplorerApi.pledge_amount item = Some pa ->
  ExplorerApi.total_delegation item = Some td ->
  let pledge := or_else (Number (ExplorerApi.amount pa)) zero in
  let delegations := or_else (Number (ExplorerApi.amount td)) zero in
  let ratio := div (mul pledge (of_N 100)) (add pledge delegations) in
  exists row,
    mixNodeResponseItemToMixnodeRowType item = inr row
    /\ (isFinite ratio = false ->
        self_percentage row = "NaN"
        \/ self_percentage row = "Infinity"
        \/ self_percentage row = "-Infinity")
    /\ (isFinite ratio = true ->
        Qle_bool (pow10 21) (Qabs (to_Q ratio)) = false ->
        exists sign a b,
          self_percentage row = sign ++ a ++ "." ++ b
          /\ (sign = "" \/ sign = "-")
          /\ (1 <= String.length a)%nat
          /\ String.length b = 2%nat).
Proof.
  intros H Hp Hd pledge delegations ratio.
  destruct (required_objects item H) as (mn & _ & _ & H1 & _ & _).
  eexists. split; [apply (row_of_record item mn pa td H1 Hp Hd)|].
  cbn [self_percentage]. fold pledge delegations. fold ratio.
  split; [apply toFixed_2_not_finite|apply toFixed_2_shape].
Qed.

Lemma self_percentage_two_decimals_witness :
  exists row sign a b,
    mixNodeResponseItemToMixnodeRowType (record "1" "2" JsUndefined) = inr row
    /\ self_percentage row = sign ++ a ++ "." ++ b
    /\ String.length b = 2%nat.
Proof.
  destruct (self_percentage_two_decimals
              (record "1" "2" JsUndefined)
              {| ExplorerApi.amount := JsStr "1" |}
              {| ExplorerApi.amount := JsStr "2" |}
              eq_refl eq_refl eq_refl)
    as (row & Hrow & _ & Hshape).
  destruct Hshape as (sign & a & b & Hs & _ & _ & Hb);
    [vm_compute; reflexivity|vm_compute; reflexivity|].
  exists row, sign, a, b. repeat split; assumption.
Defined.

(** X10: a raw [stake_saturation] that is a Number other than 0 and NaN
    is rendered from its hundredfold: ["NaN %"], ["Infinity %"] or
    ["-Infinity %"] when that is not finite, and, when it is finite and
    below [10 ^ 21] in magnitude, an optional minus, an integer part, a
    point, exactly two more characters and [" %"]. *)
Theorem stake_saturation_two_decimals
  (item : ExplorerApi.MixNodeResponseItem) (x : number) :
  has_required_objects item = true ->
  ExplorerApi.stake_saturation item = JsNum x ->
  truthy x = true ->
  let percent := mul x (of_N 100) in
  exists row,
    mixNodeResponseItemToMixnodeRowType item = inr row
    /\ (isFinite percent = false ->
        stake_saturation row = "NaN %"
        \/ stake_saturation row = "Infinity %"
        \/ stake_saturation row = "-Infinity %")
    /\ (isFinite percent = true ->
        Qle_bool (pow10 21) (Qabs (to_Q percent)) = false ->
        exists sign a b,
          stake_saturation row = (sign ++ a ++ "." ++ b) ++ " %"
          /\ (sign = "" \/ sign = "-")
          /\ (1 <= String.length a)%nat
          /\ String.length b = 2%nat).
Proof.
  intros H Hs Hx percent.
  destruct (required_objects item H) as (mn & pa & td & H1 & H2 & H3).
  eexists. split; [apply (row_of_record item mn pa td H1 H2 H3)|].
  cbn [stake_saturation]. rewrite Hs. unfold or_else.
  cbn [truthy value_truthy]. rewrite Hx.
  cbn [typeof String.eqb Ascii.eqb Bool.eqb Number]. fold percent.
  split.
  - intros F. destruct (toFixed_2_not_finite percent F) as [E|[E|E]];
      rewrite E; auto.
  - intros F S.
    destruct (toFixed_2_shape percent F S) as (sign & a & b & E & R).
    exists sign, a, b. rewrite E. split; [reflexivity|exact R].
Qed.

Lemma stake_saturation_two_decimals_witness :
  exists row sign a b,
    mixNodeResponseItemToMixnodeRowType (record "600" "400" (JsNum n_0_8552))
    = inr row
    /\ stake_saturation row = (sign ++ a ++ "." ++ b) ++ " %"
    /\ String.length b = 2%nat.
Proof.
  destruct (stake_saturation_two_decimals
              (record "600" "400" (JsNum n_0_8552)) n_0_8552
              eq_refl eq_refl eq_refl)
    as (row & Hrow & _ & Hshape).
  destruct Hshape as (sign & a & b & Hs & _ & _ & Hb);
    [vm_compute; reflexivity|vm_compute; reflexivity|].
  exists row, sign, a, b. repeat split; assumption.
Defined.
